(** * LoknoButton: a debounced push-button for Arduino

    Shallow embedding of [libraries/LoknoButton/LoknoButton.h] and the
    properties of its debounce filter.

    The class talks to the board through three calls of the Arduino core:
    [pinMode], [digitalRead] and [millis].  A method of the class becomes a
    function that receives, as arguments, what those calls returned during
    its execution, in the order the method makes them, and that returns the
    object it leaves behind.  [read] calls [millis] up to twice (once when
    it notices an edge, once for the comparison); the timer interrupt may
    tick in between, so the two readings are separate arguments. *)

From Stdlib Require Import ZArith Bool List Lia.
Import ListNotations.
Local Open Scope Z_scope.

(** ** The Arduino core as the class sees it *)

Module Arduino.

(** [Arduino.h]: [#define HIGH 0x1], [#define LOW 0x0]. *)
Definition HIGH : Z := 1.
Definition LOW : Z := 0.

(** The two pin modes [begin] chooses between. *)
Inductive PinMode : Set := INPUT | INPUT_PULLUP.

(** [unsigned long] has 32 bits on the Arduino cores; [millis] counts in
    it and wraps after about 49.7 days. *)
Definition ULONG_MODULUS : Z := 4294967296.

(** [int] has 16 bits on AVR boards and 32 bits on ARM and ESP boards.  An
    [int] is represented by its value; every value of either width lies in
    the 32-bit range below. *)
Definition INT_MIN : Z := -2147483648.
Definition INT_MAX : Z := 2147483647.

Definition is_int (i : Z) : Prop := INT_MIN <= i <= INT_MAX.
Definition is_ulong (u : Z) : Prop := 0 <= u < ULONG_MODULUS.

(** Conversion of an [int] operand to [unsigned long], as the usual
    arithmetic conversions do when the other operand is [unsigned long]:
    the value modulo 2^32, whatever the width of [int]. *)
Definition ulong_of_int (i : Z) : Z := i mod ULONG_MODULUS.

(** [a - b] on [unsigned long]. *)
Definition ulong_sub (a b : Z) : Z := (a - b) mod ULONG_MODULUS.

(** Conversion of an [int] to [bool]: anything but zero is [true]. *)
Definition bool_of_int (i : Z) : bool := negb (i =? 0).

(** [a != b] on [bool]. *)
Definition bool_neq (a b : bool) : bool := xorb a b.

(** What [millis] returns when [T] milliseconds have really passed since
    the board started: the 32-bit counter has wrapped [T / 2^32] times. *)
Definition millis_at (T : Z) : Z := T mod ULONG_MODULUS.

End Arduino.

Import Arduino.

(** ** The object *)

(** The data members, in the order of the class. *)
Record LoknoButton : Set := mkLoknoButton {
  pin : Z;
  debounce_time : Z;
  active_low : bool;
  pressed : bool;
  changed : bool;
  last_state : bool;
  pullup_enable : bool;
  last_debounce_time : Z
}.

(** Assignments to single members. *)
Definition set_pressed (v : bool) (b : LoknoButton) : LoknoButton :=
  mkLoknoButton (pin b) (debounce_time b) (active_low b) v (changed b)
                (last_state b) (pullup_enable b) (last_debounce_time b).

Definition set_changed (v : bool) (b : LoknoButton) : LoknoButton :=
  mkLoknoButton (pin b) (debounce_time b) (active_low b) (pressed b) v
                (last_state b) (pullup_enable b) (last_debounce_time b).

Definition set_last_state (v : bool) (b : LoknoButton) : LoknoButton :=
  mkLoknoButton (pin b) (debounce_time b) (active_low b) (pressed b) (changed b)
                v (pullup_enable b) (last_debounce_time b).

Definition set_last_debounce_time (v : Z) (b : LoknoButton) : LoknoButton :=
  mkLoknoButton (pin b) (debounce_time b) (active_low b) (pressed b) (changed b)
                (last_state b) (pullup_enable b) v.

(** The constructor [LoknoButton(pin, debounce_time, pullup_enable, active_low)]. *)
Definition LoknoButton_ctor (pin debounce_time : Z) (pullup_enable active_low : bool)
  : LoknoButton :=
  {| pin := pin;
     debounce_time := debounce_time;
     pullup_enable := pullup_enable;
     active_low := active_low;
     pressed := false;
     changed := false;
     last_state := bool_of_int HIGH;
     last_debounce_time := 0 |}.

(** ** The methods *)

(** The sample both [begin] and [read] work with: the value of
    [digitalRead] as a [bool], negated when the button is active low. *)
Definition curr_state (level : Z) (b : LoknoButton) : bool :=
  let curr_state := bool_of_int level in
  if active_low b then negb curr_state else curr_state.

(** [millis() - this->last_debounce_time] *)
Definition elapsed (now : Z) (b : LoknoButton) : Z :=
  ulong_sub now (last_debounce_time b).

(** The [pinMode] call of [begin]: the pin and the mode it is given. *)
Definition begin_pinMode (b : LoknoButton) : Z * PinMode :=
  (pin b, if pullup_enable b then INPUT_PULLUP else INPUT).

(** [begin()], with [level] the result of [digitalRead] and [now] the result
    of [millis]. *)
Definition begin (level now : Z) (b : LoknoButton) : LoknoButton :=
  let b := set_pressed (bool_of_int level) b in
  let b := if active_low b then set_pressed (negb (pressed b)) b else b in
  let b := set_last_state (pressed b) b in
  let b := set_changed false b in
  set_last_debounce_time now b.

(** [read()], with [level] the result of [digitalRead], [t_edge] the result
    of the [millis] call made when the sample differs from the previous one,
    and [t_check] the result of the [millis] call of the comparison. *)
Definition read (level t_edge t_check : Z) (b : LoknoButton) : LoknoButton :=
  let curr_state := curr_state level b in
  let b :=
    if bool_neq curr_state (last_state b)
    then set_last_debounce_time t_edge b
    else b in
  let b :=
    if ulong_of_int (debounce_time b) <? elapsed t_check b then
      if bool_neq curr_state (pressed b)
      then set_changed true (set_pressed curr_state b)
      else set_changed false b
    else set_changed false b in
  set_last_state curr_state b.

Definition isPressed (b : LoknoButton) : bool := pressed b.

(** [releasedFor(ms)], with [now] the result of [millis] (called only when
    the button is not pressed). *)
Definition releasedFor (ms now : Z) (b : LoknoButton) : bool :=
  if negb (pressed b) && (ulong_of_int ms <=? elapsed now b)
  then true
  else false.

Definition wasPressed (b : LoknoButton) : bool := changed b && pressed b.
Definition wasReleased (b : LoknoButton) : bool := changed b && negb (pressed b).

(** ** Calls and runs *)

(** A call of a public method, with what the board returned during it. *)
Inductive Call : Set :=
| call_begin (level now : Z)
| call_read (level t_edge t_check : Z)
| call_isPressed
| call_releasedFor (ms now : Z)
| call_wasPressed
| call_wasReleased.

(** The object a call leaves behind and the value it returns ([None] for
    the [void] methods). *)
Definition invoke (c : Call) (b : LoknoButton) : LoknoButton * option bool :=
  match c with
  | call_begin level now => (begin level now b, None)
  | call_read level t_edge t_check => (read level t_edge t_check b, None)
  | call_isPressed => (b, Some (isPressed b))
  | call_releasedFor ms now => (b, Some (releasedFor ms now b))
  | call_wasPressed => (b, Some (wasPressed b))
  | call_wasReleased => (b, Some (wasReleased b))
  end.

Definition is_accessor (c : Call) : bool :=
  match c with
  | call_begin _ _ | call_read _ _ _ => false
  | _ => true
  end.

(** What the board returns during one [read]. *)
Record Sample : Set := mkSample {
  s_level : Z;
  s_edge : Z;
  s_check : Z
}.

Definition poll (s : Sample) (b : LoknoButton) : LoknoButton :=
  read (s_level s) (s_edge s) (s_check s) b.

(** The objects seen after each of a sequence of polls. *)
Fixpoint polls (ss : list Sample) (b : LoknoButton) : list LoknoButton :=
  match ss with
  | [] => []
  | s :: ss' => let b' := poll s b in b' :: polls ss' b'
  end.

(** The object left behind by a sequence of calls made one after another. *)
Definition run (cs : list Call) (b : LoknoButton) : LoknoButton :=
  fold_left (fun b c => fst (invoke c b)) cs b.

(** How many of the objects have [changed] set: over the objects seen after
    each poll of a sequence, the number of changes the polls reported. *)
Definition count_changed (l : list LoknoButton) : nat :=
  length (filter changed l).

(** ** Concrete objects *)

(** A button on pin 2 with a 50 ms interval, active high, no pull-up, whose
    line was low when [begin] ran at time 0. *)
Definition idle_button : LoknoButton :=
  begin LOW 0 (LoknoButton_ctor 2 50 false false).

(** The same button after the poll, still at time 0, that saw the line go
    high. *)
Definition rising_button : LoknoButton := read HIGH 0 0 idle_button.

(** An active-low button with the pull-up enabled. *)
Definition pullup_button : LoknoButton := LoknoButton_ctor 3 20 true true.

(** ** Conversions and modular subtraction *)

Lemma ULONG_MODULUS_pow : ULONG_MODULUS = 2 ^ 32.
Proof. reflexivity. Qed.

Lemma ulong_sub_is_ulong (a b : Z) : is_ulong (ulong_sub a b).
Proof. unfold is_ulong, ulong_sub. apply Z.mod_pos_bound. reflexivity. Qed.

Lemma ulong_of_int_is_ulong (i : Z) : is_ulong (ulong_of_int i).
Proof. unfold is_ulong, ulong_of_int. apply Z.mod_pos_bound. reflexivity. Qed.

Lemma ulong_of_int_nonneg (i : Z) :
  0 <= i <= INT_MAX -> ulong_of_int i = i.
Proof.
  unfold ulong_of_int, INT_MAX, ULONG_MODULUS. intros Hi.
  apply Z.mod_small. lia.
Qed.

Lemma ulong_of_int_neg (i : Z) :
  INT_MIN <= i < 0 -> ulong_of_int i = i + ULONG_MODULUS.
Proof.
  unfold ulong_of_int, INT_MIN, ULONG_MODULUS. intros Hi.
  symmetry. apply (Z.mod_unique_pos _ _ (-1)); lia.
Qed.

Lemma ulong_of_int_ge (i : Z) : is_int i -> i <= ulong_of_int i.
Proof.
  unfold is_int. intros [Hlo Hhi].
  destruct (Z_lt_le_dec i 0) as [Hneg | Hpos].
  - rewrite ulong_of_int_neg by lia. unfold ULONG_MODULUS. lia.
  - rewrite ulong_of_int_nonneg by lia. lia.
Qed.

Lemma ulong_sub_millis_at (T0 T1 : Z) :
  0 <= T1 - T0 < ULONG_MODULUS ->
  ulong_sub (millis_at T1) (millis_at T0) = T1 - T0.
Proof.
  intros H. unfold ulong_sub, millis_at.
  rewrite <- Zminus_mod. apply Z.mod_small. exact H.
Qed.

(** ** What [read] and [begin] leave in each member *)

(** Case analysis along the branches of [read], outermost test first. *)
Ltac read_cases :=
  unfold read, elapsed;
  repeat match goal with
         | |- context [if bool_neq ?x ?y then _ else _] =>
             destruct (bool_neq x y); cbn [last_debounce_time debounce_time pressed
               changed last_state pin active_low pullup_enable set_pressed
               set_changed set_last_state set_last_debounce_time andb]
         | |- context [if ?u <? ?v then _ else _] =>
             destruct (u <? v); cbn [last_debounce_time debounce_time pressed
               changed last_state pin active_low pullup_enable set_pressed
               set_changed set_last_state set_last_debounce_time andb]
         end.

Section Members.

Variables (level t_edge t_check : Z) (b : LoknoButton).

Lemma read_last_state :
  last_state (read level t_edge t_check b) = curr_state level b.
Proof. reflexivity. Qed.

Lemma read_last_debounce_time :
  last_debounce_time (read level t_edge t_check b) =
  if bool_neq (curr_state level b) (last_state b)
  then t_edge
  else last_debounce_time b.
Proof.
  read_cases; reflexivity.
Qed.

Lemma read_changed :
  changed (read level t_edge t_check b) =
  (ulong_of_int (debounce_time b) <? elapsed t_check (read level t_edge t_check b))
  && bool_neq (curr_state level b) (pressed b).
Proof.
  unfold elapsed at 1. rewrite read_last_debounce_time.
  read_cases; reflexivity.
Qed.

Lemma read_pressed :
  pressed (read level t_edge t_check b) =
  if changed (read level t_edge t_check b)
  then curr_state level b
  else pressed b.
Proof.
  read_cases; reflexivity.
Qed.

Lemma read_config :
  pin (read level t_edge t_check b) = pin b /\
  debounce_time (read level t_edge t_check b) = debounce_time b /\
  active_low (read level t_edge t_check b) = active_low b /\
  pullup_enable (read level t_edge t_check b) = pullup_enable b.
Proof.
  read_cases; repeat split.
Qed.

End Members.

Section BeginMembers.

Variables (level now : Z) (b : LoknoButton).

Lemma begin_pressed : pressed (begin level now b) = curr_state level b.
Proof. unfold begin, curr_state. cbn. destruct (active_low b); reflexivity. Qed.

Lemma begin_last_state : last_state (begin level now b) = curr_state level b.
Proof. unfold begin, curr_state. cbn. destruct (active_low b); reflexivity. Qed.

Lemma begin_changed : changed (begin level now b) = false.
Proof. reflexivity. Qed.

Lemma begin_last_debounce_time : last_debounce_time (begin level now b) = now.
Proof. reflexivity. Qed.

End BeginMembers.

(** The sample depends on the object through its polarity only. *)
Lemma curr_state_active_low (level : Z) (b b' : LoknoButton) :
  active_low b' = active_low b -> curr_state level b' = curr_state level b.
Proof. unfold curr_state. intros ->. reflexivity. Qed.

Lemma bool_neq_true_iff (x y : bool) : bool_neq x y = true <-> x <> y.
Proof. destruct x, y; cbn; split; congruence. Qed.

Lemma bool_neq_false_iff (x y : bool) : bool_neq x y = false <-> x = y.
Proof. destruct x, y; cbn; split; congruence. Qed.

(** ** One poll *)

(** A poll whose elapsed time does not exceed the interval confirms
    nothing; this includes the poll at which the two are equal. *)
Lemma read_within_interval (level t_edge t_check : Z) (b : LoknoButton) :
  elapsed t_check (read level t_edge t_check b) <= ulong_of_int (debounce_time b) ->
  pressed (read level t_edge t_check b) = pressed b /\
  changed (read level t_edge t_check b) = false.
Proof.
  intros H.
  assert (Hc : changed (read level t_edge t_check b) = false).
  { rewrite read_changed. apply andb_false_intro1. apply Z.ltb_ge. exact H. }
  split; [rewrite read_pressed, Hc; reflexivity | exact Hc].
Qed.

(** A poll whose elapsed time exceeds the interval commits the sample when
    it differs from the debounced state. *)
Lemma read_past_interval (level t_edge t_check : Z) (b : LoknoButton) :
  ulong_of_int (debounce_time b) < elapsed t_check (read level t_edge t_check b) ->
  curr_state level b <> pressed b ->
  pressed (read level t_edge t_check b) = curr_state level b /\
  changed (read level t_edge t_check b) = true.
Proof.
  intros H Hne.
  assert (Hc : changed (read level t_edge t_check b) = true).
  { rewrite read_changed. apply andb_true_intro. split.
    - apply Z.ltb_lt. exact H.
    - apply bool_neq_true_iff. exact Hne. }
  split; [rewrite read_pressed, Hc; reflexivity | exact Hc].
Qed.

(** A poll that sees the debounced state itself reports no change and keeps
    it, whatever the clock says. *)
Lemma read_steady (level t_edge t_check : Z) (b : LoknoButton) :
  curr_state level b = pressed b ->
  pressed (read level t_edge t_check b) = pressed b /\
  changed (read level t_edge t_check b) = false.
Proof.
  intros He.
  assert (Hc : changed (read level t_edge t_check b) = false).
  { rewrite read_changed. apply andb_false_intro2.
    apply bool_neq_false_iff. exact He. }
  split; [rewrite read_pressed, Hc; reflexivity | exact Hc].
Qed.

(** A poll that reports no change keeps the debounced state. *)
Lemma read_quiet (level t_edge t_check : Z) (b : LoknoButton) :
  changed (read level t_edge t_check b) = false ->
  pressed (read level t_edge t_check b) = pressed b.
Proof. intros Hc. rewrite read_pressed, Hc. reflexivity. Qed.

(** ** Runs of polls *)

Lemma polls_quiet (ss : list Sample) (b : LoknoButton) :
  Forall (fun b' => changed b' = false) (polls ss b) ->
  Forall (fun b' => isPressed b' = isPressed b) (polls ss b).
Proof.
  revert b. induction ss as [| s ss IH]; intros b H; cbn in *.
  - constructor.
  - inversion H as [| x l Hc Hrest]; subst.
    assert (Hp : isPressed (poll s b) = isPressed b)
      by (apply read_quiet; exact Hc).
    constructor; [exact Hp |].
    rewrite <- Hp. apply IH. exact Hrest.
Qed.

Lemma polls_steady (ss : list Sample) (b : LoknoButton) :
  Forall (fun s => curr_state (s_level s) b = pressed b) ss ->
  Forall (fun b' => changed b' = false /\ pressed b' = pressed b) (polls ss b).
Proof.
  revert b. induction ss as [| s ss IH]; intros b H; cbn.
  - constructor.
  - inversion H as [| x l Hs Hrest]; subst.
    destruct (read_steady (s_level s) (s_edge s) (s_check s) b Hs) as [Hp Hc].
    fold (poll s b) in Hp, Hc.
    constructor; [split; assumption |].
    rewrite <- Hp. apply IH.
    apply Forall_impl with (2 := Hrest). intros s' Hs'.
    rewrite Hp.
    rewrite (curr_state_active_low (s_level s') b (poll s b)); [exact Hs' |].
    apply read_config.
Qed.

(** ** The scenarios of the specification *)

(** The line goes high at time 0 and stays high; the poll at time 60
    reports the press. *)
Example scenario_stable_press :
  let b := read HIGH 60 60 rising_button in
  changed b = true /\ isPressed b = true /\ wasPressed b = true /\
  wasReleased b = false.
Proof. vm_compute. repeat split. Qed.

(** The line bounces low at time 10 and back high at time 30: the window
    restarts at 30, the poll at 40 reports nothing and the poll at 85
    reports the press. *)
Example scenario_bounce :
  let b30 := read HIGH 30 30 (read LOW 10 10 rising_button) in
  let b40 := read HIGH 40 40 b30 in
  let b85 := read HIGH 85 85 b40 in
  last_debounce_time b30 = 30 /\
  changed b40 = false /\ isPressed b40 = false /\
  changed b85 = true /\ isPressed b85 = true.
Proof. vm_compute. repeat split. Qed.

Example begin_configures_pin :
  begin_pinMode pullup_button = (3, INPUT_PULLUP) /\
  begin_pinMode idle_button = (2, INPUT).
Proof. split; reflexivity. Qed.

(** ** Properties of the debounce filter *)

(** C1 (as the code has it): take a poll whose sample differs from the
    debounced state.  When the time elapsed since the last raw change
    strictly exceeds the interval (compared in [unsigned long]) the poll
    sets [changed] and commits the sample, so [isPressed] returns it, and
    keeps returning it through every later run of polls in which [changed]
    stays false, that is, until another confirmed transition.  When the
    elapsed time does not exceed the interval the poll confirms nothing.
    For an interval of at least zero the comparison is the plain one: the
    poll confirms exactly when the elapsed time is greater than the
    interval, and a poll at which the two are equal does not confirm. *)
Theorem read_confirms_past_interval
  (level t_edge t_check : Z) (b : LoknoButton) (ss : list Sample) :
  let b' := read level t_edge t_check b in
  curr_state level b <> pressed b ->
  (ulong_of_int (debounce_time b) < elapsed t_check b' ->
   changed b' = true /\
   pressed b' = curr_state level b /\
   isPressed b' = curr_state level b /\
   (Forall (fun s => changed s = false) (polls ss b') ->
    Forall (fun s => isPressed s = curr_state level b) (polls ss b'))) /\
  (elapsed t_check b' <= ulong_of_int (debounce_time b) ->
   changed b' = false /\ pressed b' = pressed b /\ isPressed b' = pressed b) /\
  (0 <= debounce_time b <= INT_MAX ->
   (changed b' = true <-> debounce_time b < elapsed t_check b') /\
   (elapsed t_check b' = debounce_time b ->
    changed b' = false /\ pressed b' = pressed b /\ isPressed b' = pressed b)).
Proof.
  intros b' Hne.
  assert (Hin : elapsed t_check b' <= ulong_of_int (debounce_time b) ->
                changed b' = false /\ pressed b' = pressed b /\
                isPressed b' = pressed b).
  { intros Hle.
    destruct (read_within_interval level t_edge t_check b Hle) as [Hp Hc].
    fold b' in Hp, Hc. unfold isPressed. repeat split; assumption. }
  assert (Hout : ulong_of_int (debounce_time b) < elapsed t_check b' ->
                 changed b' = true /\ pressed b' = curr_state level b).
  { intros Hpast.
    destruct (read_past_interval level t_edge t_check b Hpast Hne) as [Hp Hc].
    fold b' in Hp, Hc. split; assumption. }
  split; [| split; [exact Hin |]].
  - intros Hpast. destruct (Hout Hpast) as [Hc Hp].
    repeat split; try assumption.
    intros Hquiet. apply polls_quiet in Hquiet.
    unfold isPressed in Hquiet at 2. rewrite Hp in Hquiet. exact Hquiet.
  - intros Hd. rewrite (ulong_of_int_nonneg _ Hd) in Hin, Hout. split.
    + split.
      * intros Hc.
        destruct (Z_lt_le_dec (debounce_time b) (elapsed t_check b'))
          as [Hlt | Hle]; [exact Hlt |].
        destruct (Hin Hle) as [Hc' _]. congruence.
      * intros Hlt. apply Hout. exact Hlt.
    + intros Heq. apply Hin. lia.
Qed.

Lemma read_confirms_past_interval_witness :
  let b' := read HIGH 51 51 rising_button in
  let later := [mkSample HIGH 70 70; mkSample LOW 80 80; mkSample LOW 90 90] in
  curr_state HIGH rising_button <> pressed rising_button /\
  ulong_of_int (debounce_time rising_button) < elapsed 51 b' /\
  Forall (fun s => changed s = false) (polls later b') /\
  0 <= debounce_time rising_button <= INT_MAX /\
  elapsed 50 (read HIGH 50 50 rising_button) = debounce_time rising_button /\
  changed b' = true /\
  Forall (fun s => isPressed s = true) (polls later b') /\
  changed (read HIGH 50 50 rising_button) = false /\
  isPressed (read HIGH 50 50 rising_button) = false.
Proof.
  cbv zeta.
  assert (H0 : curr_state HIGH rising_button <> pressed rising_button)
    by (vm_compute; discriminate).
  assert (H1 : ulong_of_int (debounce_time rising_button)
               < elapsed 51 (read HIGH 51 51 rising_button))
    by (vm_compute; reflexivity).
  assert (H2 : Forall (fun s => changed s = false)
                 (polls [mkSample HIGH 70 70; mkSample LOW 80 80; mkSample LOW 90 90]
                    (read HIGH 51 51 rising_button)))
    by (vm_compute; repeat constructor).
  assert (H3 : 0 <= debounce_time rising_button <= INT_MAX)
    by (vm_compute; split; discriminate).
  assert (H4 : elapsed 50 (read HIGH 50 50 rising_button)
               = debounce_time rising_button) by reflexivity.
  repeat (split; [assumption |]).
  pose proof (proj1 (read_confirms_past_interval HIGH 51 51 rising_button
                [mkSample HIGH 70 70; mkSample LOW 80 80; mkSample LOW 90 90] H0) H1)
    as [Hc [_ [_ Hrun]]].
  pose proof (proj2 (proj2 (proj2 (read_confirms_past_interval HIGH 50 50
                rising_button [] H0)) H3) H4) as [Hc' [_ Hp']].
  split; [exact Hc | split; [exact (Hrun H2) | split; [exact Hc' | exact Hp']]].
Defined.

(** C1 with [>=] in place of [>] fails when the elapsed time equals the
    interval: the line has been high for exactly 50 ms, the debounced state
    is still released, and the poll confirms nothing. *)
Lemma read_at_exact_interval_counterexample :
  let b' := read HIGH 50 50 rising_button in
  last_state rising_button = curr_state HIGH rising_button /\
  elapsed 50 b' = debounce_time rising_button /\
  debounce_time rising_button <= elapsed 50 b' /\
  curr_state HIGH rising_button = true /\
  pressed rising_button = false /\
  changed b' = false /\
  isPressed b' = false.
Proof. vm_compute. repeat split; discriminate. Qed.

(** C2: a poll made while the time elapsed since the last raw change is
    below the interval leaves [pressed] as it was and clears [changed],
    whatever the sample. *)
Theorem read_inside_window (level t_edge t_check : Z) (b : LoknoButton) :
  is_int (debounce_time b) ->
  let b' := read level t_edge t_check b in
  elapsed t_check b' < debounce_time b ->
  pressed b' = pressed b /\ changed b' = false.
Proof.
  intros Hint b' Hin. apply read_within_interval.
  pose proof (ulong_of_int_ge _ Hint). fold b'. lia.
Qed.

Lemma read_inside_window_witness :
  is_int (debounce_time rising_button) /\
  elapsed 49 (read HIGH 49 49 rising_button) < debounce_time rising_button /\
  pressed (read HIGH 49 49 rising_button) = pressed rising_button /\
  changed (read HIGH 49 49 rising_button) = false.
Proof.
  assert (H1 : is_int (debounce_time rising_button))
    by (vm_compute; split; discriminate).
  assert (H2 : elapsed 49 (read HIGH 49 49 rising_button) < debounce_time rising_button)
    by (vm_compute; reflexivity).
  split; [exact H1 | split; [exact H2 |]].
  exact (read_inside_window HIGH 49 49 rising_button H1 H2).
Defined.

(** C3 (as the code has it): [releasedFor ms] returns true exactly when the
    button is released and the time elapsed since [last_debounce_time] (the
    start of the last raw transition) is at least [ms] converted to
    [unsigned long]; for [ms >= 0] that is the plain comparison with [ms].
    While released, [releasedFor 100] is true with 120 ms elapsed and false
    with 50 ms elapsed. *)
Theorem releasedFor_spec (ms now : Z) (b : LoknoButton) :
  (releasedFor ms now b = true <->
   pressed b = false /\ ulong_of_int ms <= elapsed now b) /\
  (0 <= ms <= INT_MAX ->
   (releasedFor ms now b = true <-> pressed b = false /\ ms <= elapsed now b)) /\
  (pressed b = false -> elapsed now b = 120 -> releasedFor 100 now b = true) /\
  (pressed b = false -> elapsed now b = 50 -> releasedFor 100 now b = false).
Proof.
  assert (Hiff : forall d, releasedFor d now b = true <->
                           pressed b = false /\ ulong_of_int d <= elapsed now b).
  { intros d. unfold releasedFor.
    destruct (pressed b); cbn [negb andb].
    - split; [discriminate | intros [H _]; discriminate].
    - destruct (Z.leb_spec (ulong_of_int d) (elapsed now b)) as [Hle | Hgt].
      + split; auto.
      + split; [discriminate | intros [_ H]; lia]. }
  split; [apply Hiff | split; [| split]].
  - intros Hms. rewrite <- (ulong_of_int_nonneg ms Hms) at 2. apply Hiff.
  - intros Hrel He. apply Hiff. split; [exact Hrel |].
    rewrite He. vm_compute. discriminate.
  - intros Hrel He. destruct (releasedFor 100 now b) eqn:Hr; [| reflexivity].
    apply Hiff in Hr. destruct Hr as [_ Hr]. rewrite He in Hr.
    vm_compute in Hr. contradiction Hr. reflexivity.
Qed.

Lemma releasedFor_spec_witness :
  0 <= 100 <= INT_MAX /\
  pressed idle_button = false /\
  elapsed 120 idle_button = 120 /\
  elapsed 50 idle_button = 50 /\
  releasedFor 100 120 idle_button = true /\
  releasedFor 100 50 idle_button = false /\
  (releasedFor 100 120 idle_button = true <->
   pressed idle_button = false /\ 100 <= elapsed 120 idle_button).
Proof.
  assert (H0 : 0 <= 100 <= INT_MAX) by (vm_compute; split; discriminate).
  assert (H1 : pressed idle_button = false) by reflexivity.
  assert (H2 : elapsed 120 idle_button = 120) by reflexivity.
  assert (H3 : elapsed 50 idle_button = 50) by reflexivity.
  repeat (split; [assumption |]).
  split; [| split].
  - exact (proj1 (proj2 (proj2 (releasedFor_spec 100 120 idle_button))) H1 H2).
  - exact (proj2 (proj2 (proj2 (releasedFor_spec 100 50 idle_button))) H1 H3).
  - exact (proj1 (proj2 (releasedFor_spec 100 120 idle_button)) H0).
Defined.

(** C3 with the duration taken as a signed number fails for a negative
    one: the button is released and 5 ms, which is at least -1, have
    elapsed, yet [releasedFor (-1)] returns false. *)
Lemma releasedFor_negative_counterexample :
  pressed idle_button = false /\
  -1 <= elapsed 5 idle_button /\
  releasedFor (-1) 5 idle_button = false.
Proof. vm_compute. repeat split; discriminate. Qed.

(** C4: every [read] moves [last_debounce_time] to the clock value exactly
    when the sample differs from [last_state], and leaves it alone
    otherwise, whether or not the poll goes on to confirm a change; and it
    always ends by storing the sample in [last_state]. *)
Theorem read_timestamp_and_last_state (level t_edge t_check : Z) (b : LoknoButton) :
  let b' := read level t_edge t_check b in
  (curr_state level b <> last_state b -> last_debounce_time b' = t_edge) /\
  (curr_state level b = last_state b ->
   last_debounce_time b' = last_debounce_time b) /\
  last_state b' = curr_state level b.
Proof.
  intros b'. unfold b'. rewrite read_last_debounce_time, read_last_state.
  repeat split.
  - intros Hne. apply bool_neq_true_iff in Hne. rewrite Hne. reflexivity.
  - intros He. apply bool_neq_false_iff in He. rewrite He. reflexivity.
Qed.

Lemma read_timestamp_and_last_state_witness :
  curr_state HIGH idle_button <> last_state idle_button /\
  last_debounce_time (read HIGH 7 8 idle_button) = 7 /\
  curr_state LOW idle_button = last_state idle_button /\
  last_debounce_time (read LOW 7 8 idle_button) = 0 /\
  last_state (read HIGH 7 8 idle_button) = true.
Proof.
  assert (H1 : curr_state HIGH idle_button <> last_state idle_button)
    by (vm_compute; discriminate).
  assert (H2 : curr_state LOW idle_button = last_state idle_button)
    by reflexivity.
  split; [exact H1 | split; [| split; [exact H2 | split]]].
  - exact (proj1 (read_timestamp_and_last_state HIGH 7 8 idle_button) H1).
  - exact (proj1 (proj2 (read_timestamp_and_last_state LOW 7 8 idle_button)) H2).
  - exact (proj2 (proj2 (read_timestamp_and_last_state HIGH 7 8 idle_button))).
Defined.

(** C5: after [begin], [pressed] and [last_state] both hold the one reading
    taken, negated when the button is active low, [changed] is false and
    [last_debounce_time] is the clock value read.  For an active-low button
    whose line is low, [isPressed] is true right away while [wasPressed]
    and [wasReleased] are false. *)
Theorem begin_seeds_state (level now : Z) (b : LoknoButton) :
  let b' := begin level now b in
  let reading := bool_of_int level in
  let seed := if active_low b then negb reading else reading in
  pressed b' = seed /\
  last_state b' = seed /\
  changed b' = false /\
  last_debounce_time b' = now /\
  (active_low b = true -> level = LOW ->
   isPressed b' = true /\ wasPressed b' = false /\ wasReleased b' = false).
Proof.
  cbv zeta.
  rewrite begin_pressed, begin_last_state, begin_changed, begin_last_debounce_time.
  unfold curr_state. repeat split; try reflexivity;
    subst; unfold isPressed, wasPressed, wasReleased;
    rewrite ?begin_pressed, ?begin_changed; unfold curr_state;
    try rewrite H; reflexivity.
Qed.

Lemma begin_seeds_state_witness :
  active_low pullup_button = true /\
  isPressed (begin LOW 1000 pullup_button) = true /\
  wasPressed (begin LOW 1000 pullup_button) = false /\
  wasReleased (begin LOW 1000 pullup_button) = false.
Proof.
  split; [reflexivity |].
  exact (proj2 (proj2 (proj2 (proj2 (begin_seeds_state LOW 1000 pullup_button))))
           eq_refl eq_refl).
Defined.

(** C6: once a poll has confirmed a transition, every later poll made while
    the sample stays equal to the debounced state clears [changed] and
    keeps the state, whatever the clock readings: a steady state is never
    reported as a change twice. *)
Theorem steady_state_reported_once
  (level t_edge t_check : Z) (b : LoknoButton) (ss : list Sample) :
  let b1 := read level t_edge t_check b in
  changed b1 = true ->
  Forall (fun s => curr_state (s_level s) b1 = pressed b1) ss ->
  Forall (fun b' => changed b' = false /\ pressed b' = pressed b1) (polls ss b1).
Proof.
  intros b1 _ Hsteady. apply polls_steady. exact Hsteady.
Qed.

Lemma steady_state_reported_once_witness :
  let b1 := read HIGH 60 60 rising_button in
  let later := [mkSample HIGH 61 61; mkSample HIGH 200 200;
                mkSample HIGH 4294967295 4294967295; mkSample HIGH 3 3] in
  changed b1 = true /\
  Forall (fun s => curr_state (s_level s) b1 = pressed b1) later /\
  Forall (fun b' => changed b' = false /\ pressed b' = pressed b1) (polls later b1).
Proof.
  assert (H1 : changed (read HIGH 60 60 rising_button) = true) by reflexivity.
  assert (H2 : Forall (fun s => curr_state (s_level s) (read HIGH 60 60 rising_button)
                                = pressed (read HIGH 60 60 rising_button))
                 [mkSample HIGH 61 61; mkSample HIGH 200 200;
                  mkSample HIGH 4294967295 4294967295; mkSample HIGH 3 3])
    by (repeat constructor).
  split; [exact H1 | split; [exact H2 |]].
  exact (steady_state_reported_once HIGH 60 60 rising_button _ H1 H2).
Defined.

(** C7: in every state of the object, [wasPressed] is true exactly when
    [changed] and [pressed] are, [wasReleased] exactly when [changed] is
    true and [pressed] false; the two are never true together, and both
    are false when [changed] is false. *)
Theorem wasPressed_wasReleased_exclusive (b : LoknoButton) :
  (wasPressed b = true <-> changed b = true /\ pressed b = true) /\
  (wasReleased b = true <-> changed b = true /\ pressed b = false) /\
  wasPressed b && wasReleased b = false /\
  (changed b = false -> wasPressed b = false /\ wasReleased b = false).
Proof.
  unfold wasPressed, wasReleased.
  destruct (changed b), (pressed b); cbn; intuition congruence.
Qed.

Lemma wasPressed_wasReleased_exclusive_witness :
  changed rising_button = false /\
  wasPressed rising_button = false /\ wasReleased rising_button = false.
Proof.
  split; [reflexivity |].
  exact (proj2 (proj2 (proj2 (wasPressed_wasReleased_exclusive rising_button)))
           eq_refl).
Defined.

(** C8: a call that changes [pressed] is [begin] or a [read] at which the
    time elapsed since the last raw change exceeds, and so is at least, the
    interval; and a call of [isPressed], [wasPressed], [wasReleased] or
    [releasedFor] leaves the whole object as it was. *)
Theorem pressed_changes_only_in_read (c : Call) (b : LoknoButton) :
  is_int (debounce_time b) ->
  (is_accessor c = true -> fst (invoke c b) = b) /\
  (pressed (fst (invoke c b)) <> pressed b ->
   (exists level now, c = call_begin level now) \/
   (exists level t_edge t_check,
      c = call_read level t_edge t_check /\
      ulong_of_int (debounce_time b) < elapsed t_check (read level t_edge t_check b) /\
      debounce_time b <= elapsed t_check (read level t_edge t_check b))).
Proof.
  intros Hint. split.
  - destruct c; cbn; intros H; try discriminate; reflexivity.
  - destruct c as [level now | level t_edge t_check | | ms now | |]; cbn;
      intros Hne; try (exfalso; apply Hne; reflexivity).
    + left. eauto.
    + right. exists level, t_edge, t_check.
      assert (Hpast : ulong_of_int (debounce_time b)
                      < elapsed t_check (read level t_edge t_check b)).
      { destruct (Z_lt_le_dec (ulong_of_int (debounce_time b))
                    (elapsed t_check (read level t_edge t_check b))) as [Hlt | Hle];
          [exact Hlt |].
        exfalso. apply Hne. apply read_within_interval. exact Hle. }
      pose proof (ulong_of_int_ge _ Hint).
      repeat split; [exact Hpast | lia].
Qed.

Lemma pressed_changes_only_in_read_witness :
  is_int (debounce_time rising_button) /\
  pressed (fst (invoke (call_read HIGH 60 60) rising_button)) <> pressed rising_button /\
  fst (invoke (call_releasedFor 100 60) rising_button) = rising_button /\
  ((exists level now, call_read HIGH 60 60 = call_begin level now) \/
   (exists level t_edge t_check,
      call_read HIGH 60 60 = call_read level t_edge t_check /\
      ulong_of_int (debounce_time rising_button)
      < elapsed t_check (read level t_edge t_check rising_button) /\
      debounce_time rising_button
      <= elapsed t_check (read level t_edge t_check rising_button))).
Proof.
  assert (H1 : is_int (debounce_time rising_button))
    by (vm_compute; split; discriminate).
  assert (H2 : pressed (fst (invoke (call_read HIGH 60 60) rising_button))
               <> pressed rising_button)
    by (vm_compute; discriminate).
  split; [exact H1 | split; [exact H2 | split]].
  - exact (proj1 (pressed_changes_only_in_read (call_releasedFor 100 60)
                    rising_button H1) eq_refl).
  - exact (proj2 (pressed_changes_only_in_read (call_read HIGH 60 60)
                    rising_button H1) H2).
Defined.

(** C9: elapsed time is the [unsigned long] difference of the clock reading
    and [last_debounce_time].  When the stored timestamp was read at true
    time [Tw] and the clock is read at true time [Tnow], less than 2^32 ms
    later, that difference is [Tnow - Tw] however often the 32-bit counter
    wrapped in between, so [releasedFor] and [read] compare the true
    distance against their interval. *)
Theorem elapsed_wraparound_safe
  (Tw Tnow level t_edge ms : Z) (b : LoknoButton) :
  0 <= Tnow - Tw < 2 ^ 32 ->
  (last_debounce_time b = millis_at Tw ->
   elapsed (millis_at Tnow) b = Tnow - Tw /\
   releasedFor ms (millis_at Tnow) b =
   negb (pressed b) && (ulong_of_int ms <=? Tnow - Tw)) /\
  (let b' := read level t_edge (millis_at Tnow) b in
   last_debounce_time b' = millis_at Tw ->
   elapsed (millis_at Tnow) b' = Tnow - Tw /\
   changed b' =
   (ulong_of_int (debounce_time b) <? Tnow - Tw)
   && bool_neq (curr_state level b) (pressed b) /\
   pressed b' = if changed b' then curr_state level b else pressed b).
Proof.
  intros Hdist. rewrite <- ULONG_MODULUS_pow in Hdist.
  assert (Hel : forall x, last_debounce_time x = millis_at Tw ->
                          elapsed (millis_at Tnow) x = Tnow - Tw).
  { intros x Hx. unfold elapsed. rewrite Hx.
    apply ulong_sub_millis_at. exact Hdist. }
  split.
  - intros Hts. split; [apply Hel; exact Hts |].
    unfold releasedFor. rewrite (Hel b Hts).
    destruct (negb (pressed b) && (ulong_of_int ms <=? Tnow - Tw)); reflexivity.
  - intros b' Hts. split; [apply Hel; exact Hts |].
    split; [| apply read_pressed].
    unfold b'. rewrite read_changed. fold b'. rewrite (Hel b' Hts). reflexivity.
Qed.

Lemma elapsed_wraparound_safe_witness :
  let b := begin LOW (millis_at 4294967286) (LoknoButton_ctor 2 50 false false) in
  let b' := read HIGH 0 (millis_at 4294967346) (read HIGH (millis_at 4294967286) (millis_at 4294967286) b) in
  0 <= 4294967346 - 4294967286 < 2 ^ 32 /\
  millis_at 4294967346 = 50 /\
  last_debounce_time b = millis_at 4294967286 /\
  last_debounce_time b' = millis_at 4294967286 /\
  elapsed (millis_at 4294967346) b = 60 /\
  releasedFor 60 (millis_at 4294967346) b = true /\
  releasedFor 61 (millis_at 4294967346) b = false /\
  changed b' = true.
Proof.
  cbv zeta.
  assert (H0 : 0 <= 4294967346 - 4294967286 < 2 ^ 32)
    by (vm_compute; split; [discriminate | reflexivity]).
  assert (H1 : last_debounce_time
                 (begin LOW (millis_at 4294967286) (LoknoButton_ctor 2 50 false false))
               = millis_at 4294967286) by reflexivity.
  assert (H2 : last_debounce_time
                 (read HIGH 0 (millis_at 4294967346)
                    (read HIGH (millis_at 4294967286) (millis_at 4294967286)
                       (begin LOW (millis_at 4294967286)
                          (LoknoButton_ctor 2 50 false false))))
               = millis_at 4294967286) by reflexivity.
  split; [exact H0 | split; [reflexivity | split; [exact H1 | split; [exact H2 |]]]].
  split; [| split; [| split]].
  - exact (proj1 (proj1 (elapsed_wraparound_safe 4294967286 4294967346 HIGH 0 60 _ H0) H1)).
  - exact (proj2 (proj1 (elapsed_wraparound_safe 4294967286 4294967346 HIGH 0 60 _ H0) H1)).
  - exact (proj2 (proj1 (elapsed_wraparound_safe 4294967286 4294967346 HIGH 0 61 _ H0) H1)).
  - exact (proj1 (proj2 (proj2 (elapsed_wraparound_safe 4294967286 4294967346 HIGH 0 60 _ H0) H2))).
Defined.

(** C10: [releasedFor] compares in [unsigned long], so a negative duration
    [d] stands for [d + 2^32]: for every elapsed time below that value
    [releasedFor d] returns false, released or not. *)
Theorem releasedFor_negative_duration (d now : Z) (b : LoknoButton) :
  INT_MIN <= d < 0 ->
  elapsed now b < d + 2 ^ 32 ->
  ulong_of_int d = d + 2 ^ 32 /\ releasedFor d now b = false.
Proof.
  intros Hd Hel.
  assert (Hconv : ulong_of_int d = d + 2 ^ 32)
    by (rewrite <- ULONG_MODULUS_pow; apply ulong_of_int_neg; exact Hd).
  split; [exact Hconv |].
  unfold releasedFor. rewrite Hconv.
  destruct (Z.leb_spec (d + 2 ^ 32) (elapsed now b)) as [Hle | Hgt]; [lia |].
  rewrite andb_false_r. reflexivity.
Qed.

Lemma releasedFor_negative_duration_witness :
  INT_MIN <= -1 < 0 /\
  elapsed 1000000 idle_button < -1 + 2 ^ 32 /\
  pressed idle_button = false /\
  ulong_of_int (-1) = 4294967295 /\
  releasedFor (-1) 1000000 idle_button = false.
Proof.
  assert (H1 : INT_MIN <= -1 < 0) by (vm_compute; split; [discriminate | reflexivity]).
  assert (H2 : elapsed 1000000 idle_button < -1 + 2 ^ 32) by (vm_compute; reflexivity).
  split; [exact H1 | split; [exact H2 | split; [reflexivity |]]].
  exact (releasedFor_negative_duration (-1) 1000000 idle_button H1 H2).
Defined.

(** ** Further properties of the methods *)

Lemma invoke_config (c : Call) (b : LoknoButton) :
  pin (fst (invoke c b)) = pin b /\
  debounce_time (fst (invoke c b)) = debounce_time b /\
  active_low (fst (invoke c b)) = active_low b /\
  pullup_enable (fst (invoke c b)) = pullup_enable b.
Proof.
  destruct c as [level now | level t_edge t_check | | ms now | |]; cbn;
    try (repeat split; reflexivity).
  - unfold begin. cbn. destruct (active_low b) eqn:E; cbn; rewrite ?E;
      repeat split; reflexivity.
  - apply read_config.
Qed.

(** X1: no sequence of calls of the public methods changes the
    configuration given to the constructor: the pin, the interval, the
    polarity and the pull-up choice stay what they were. *)
Theorem run_keeps_configuration (cs : list Call) (b : LoknoButton) :
  pin (run cs b) = pin b /\
  debounce_time (run cs b) = debounce_time b /\
  active_low (run cs b) = active_low b /\
  pullup_enable (run cs b) = pullup_enable b.
Proof.
  unfold run. revert b. induction cs as [| c cs IH]; intros b; cbn.
  - repeat split.
  - destruct (IH (fst (invoke c b))) as [H1 [H2 [H3 H4]]].
    destruct (invoke_config c b) as [G1 [G2 [G3 G4]]].
    rewrite H1, H2, H3, H4. repeat split; assumption.
Qed.

(** X2: [read] sets [changed] exactly when it flips the debounced state.
    So after a poll [wasPressed] is true exactly when the state went from
    released to pressed at that poll, and [wasReleased] exactly when it
    went from pressed to released. *)
Theorem read_changed_iff_flip (level t_edge t_check : Z) (b : LoknoButton) :
  let b' := read level t_edge t_check b in
  (changed b' = true <-> pressed b' <> pressed b) /\
  (wasPressed b' = true <-> pressed b = false /\ pressed b' = true) /\
  (wasReleased b' = true <-> pressed b = true /\ pressed b' = false).
Proof.
  intros b'.
  assert (Hp : pressed b' = if changed b' then curr_state level b else pressed b)
    by apply read_pressed.
  assert (Hc : changed b' = true -> curr_state level b <> pressed b).
  { unfold b'. rewrite read_changed. intros H.
    apply andb_prop in H. apply bool_neq_true_iff. apply H. }
  unfold wasPressed, wasReleased.
  destruct (changed b') eqn:Ec.
  - specialize (Hc eq_refl). rewrite Hp.
    destruct (curr_state level b), (pressed b); cbn;
      repeat split; intros; try congruence; intuition congruence.
  - clear Hc. rewrite Hp.
    destruct (pressed b); cbn; repeat split; intros; intuition congruence.
Qed.

(** X3: a poll that sees a raw edge restarts the window at its own clock
    reading, so it decides on the time between its two clock readings
    alone; when they are the same reading it confirms nothing, however
    long the previous window had lasted. *)
Theorem read_edge_restarts_window (level t_edge t_check : Z) (b : LoknoButton) :
  curr_state level b <> last_state b ->
  let b' := read level t_edge t_check b in
  last_debounce_time b' = t_edge /\
  changed b' =
  (ulong_of_int (debounce_time b) <? ulong_sub t_check t_edge)
  && bool_neq (curr_state level b) (pressed b) /\
  (t_check = t_edge -> pressed b' = pressed b /\ changed b' = false).
Proof.
  intros Hedge b'.
  assert (Hts : last_debounce_time b' = t_edge).
  { unfold b'. rewrite read_last_debounce_time.
    apply bool_neq_true_iff in Hedge. rewrite Hedge. reflexivity. }
  split; [exact Hts | split].
  - unfold b'. rewrite read_changed. fold b'. unfold elapsed. rewrite Hts.
    reflexivity.
  - intros ->. apply read_within_interval. fold b'. unfold elapsed.
    rewrite Hts. unfold ulong_sub. rewrite Z.sub_diag. cbn.
    apply (ulong_of_int_is_ulong (debounce_time b)).
Qed.

Lemma read_edge_restarts_window_witness :
  let b := read HIGH 60 60 rising_button in
  curr_state LOW b <> last_state b /\
  elapsed 5000 b = 5000 /\
  pressed (read LOW 5000 5000 b) = true /\
  changed (read LOW 5000 5000 b) = false.
Proof.
  cbv zeta.
  assert (H : curr_state LOW (read HIGH 60 60 rising_button)
              <> last_state (read HIGH 60 60 rising_button))
    by (vm_compute; discriminate).
  split; [exact H | split; [reflexivity |]].
  exact (proj2 (proj2 (read_edge_restarts_window LOW 5000 5000 _ H)) eq_refl).
Defined.

(** X4: a poll that reports a change has committed the very sample it
    took: after it [pressed] equals [last_state], so [wasPressed] means
    the sample read pressed and [wasReleased] that it read released. *)
Theorem read_change_commits_sample (level t_edge t_check : Z) (b : LoknoButton) :
  let b' := read level t_edge t_check b in
  (changed b' = true -> pressed b' = last_state b') /\
  (wasPressed b' = true -> curr_state level b = true) /\
  (wasReleased b' = true -> curr_state level b = false).
Proof.
  intros b'.
  assert (Hp : pressed b' = if changed b' then curr_state level b else pressed b)
    by apply read_pressed.
  assert (Hl : last_state b' = curr_state level b) by apply read_last_state.
  unfold wasPressed, wasReleased. rewrite Hl, Hp.
  destruct (changed b'); cbn.
  - repeat split; try congruence.
    intros H. apply negb_true_iff in H. exact H.
  - repeat split; discriminate.
Qed.

Lemma read_change_commits_sample_witness :
  changed (read HIGH 60 60 rising_button) = true /\
  pressed (read HIGH 60 60 rising_button)
  = last_state (read HIGH 60 60 rising_button) /\
  curr_state HIGH rising_button = true.
Proof.
  split; [reflexivity | split].
  - exact (proj1 (read_change_commits_sample HIGH 60 60 rising_button) eq_refl).
  - exact (proj1 (proj2 (read_change_commits_sample HIGH 60 60 rising_button))
             eq_refl).
Defined.

(** X5: a negative interval is compared as [unsigned long].  With one, a
    poll reports a change only when more than [debounce_time + 2^32] ms
    have elapsed, which is at least 2^31 ms (about 24.8 days). *)
Theorem read_negative_interval (level t_edge t_check : Z) (b : LoknoButton) :
  INT_MIN <= debounce_time b < 0 ->
  let b' := read level t_edge t_check b in
  changed b' = true ->
  debounce_time b + 2 ^ 32 < elapsed t_check b' /\ 2 ^ 31 <= elapsed t_check b'.
Proof.
  intros Hd b' Hc. unfold b' in Hc. rewrite read_changed in Hc. fold b' in Hc.
  apply andb_prop in Hc. destruct Hc as [Hlt _]. apply Z.ltb_lt in Hlt.
  rewrite (ulong_of_int_neg _ Hd) in Hlt.
  unfold INT_MIN in Hd. unfold ULONG_MODULUS in Hlt. lia.
Qed.

Lemma read_negative_interval_witness :
  let b := begin LOW 0 (LoknoButton_ctor 2 (-2147483648) false false) in
  let b' := read HIGH 0 2147483649 (read HIGH 0 0 b) in
  INT_MIN <= debounce_time (read HIGH 0 0 b) < 0 /\
  changed b' = true /\
  changed (read HIGH 0 2147483648 (read HIGH 0 0 b)) = false /\
  2 ^ 31 <= elapsed 2147483649 b'.
Proof.
  cbv zeta.
  assert (H1 : INT_MIN <= debounce_time
                 (read HIGH 0 0 (begin LOW 0 (LoknoButton_ctor 2 (-2147483648) false false)))
               < 0)
    by (vm_compute; split; [discriminate | reflexivity]).
  assert (H2 : changed (read HIGH 0 2147483649
                 (read HIGH 0 0 (begin LOW 0 (LoknoButton_ctor 2 (-2147483648) false false))))
               = true) by reflexivity.
  split; [exact H1 | split; [exact H2 | split; [reflexivity |]]].
  exact (proj2 (read_negative_interval HIGH 0 2147483649 _ H1 H2)).
Defined.

(** X6: with an interval of zero the comparison is still strict: a poll
    reports a change exactly when the sample differs from the debounced
    state and at least 1 ms has elapsed since the last raw change. *)
Theorem read_zero_interval (level t_edge t_check : Z) (b : LoknoButton) :
  debounce_time b = 0 ->
  let b' := read level t_edge t_check b in
  changed b' = true <->
  curr_state level b <> pressed b /\ 1 <= elapsed t_check b'.
Proof.
  intros Hd b'. unfold b' at 1. rewrite read_changed. fold b'. rewrite Hd.
  change (ulong_of_int 0) with 0.
  pose proof (ulong_sub_is_ulong t_check (last_debounce_time b')) as [Hlo _].
  fold (elapsed t_check b') in Hlo.
  rewrite andb_true_iff, Z.ltb_lt, bool_neq_true_iff.
  split; intros [H1 H2]; split; try assumption; lia.
Qed.

Lemma read_zero_interval_witness :
  let b := begin LOW 0 (LoknoButton_ctor 2 0 false false) in
  debounce_time b = 0 /\
  changed (read HIGH 7 7 b) = false /\
  changed (read HIGH 8 8 (read HIGH 7 7 b)) = true /\
  (changed (read HIGH 8 8 (read HIGH 7 7 b)) = true <->
   curr_state HIGH (read HIGH 7 7 b) <> pressed (read HIGH 7 7 b) /\
   1 <= elapsed 8 (read HIGH 8 8 (read HIGH 7 7 b))).
Proof.
  cbv zeta.
  split; [reflexivity | split; [reflexivity | split; [reflexivity |]]].
  exact (read_zero_interval HIGH 8 8
           (read HIGH 7 7 (begin LOW 0 (LoknoButton_ctor 2 0 false false))) eq_refl).
Defined.

Lemma count_changed_cons (b : LoknoButton) (l : list LoknoButton) :
  count_changed (b :: l) =
  if changed b then S (count_changed l) else count_changed l.
Proof. unfold count_changed. cbn. destruct (changed b); reflexivity. Qed.

Lemma count_changed_quiet (l : list LoknoButton) :
  Forall (fun b => changed b = false) l -> count_changed l = 0%nat.
Proof.
  induction 1 as [| b l Hb _ IH]; [reflexivity |].
  rewrite count_changed_cons, Hb. exact IH.
Qed.

Lemma polls_steady_count (ss : list Sample) (b : LoknoButton) :
  Forall (fun s => curr_state (s_level s) b = pressed b) ss ->
  count_changed (polls ss b) = 0%nat.
Proof.
  intros H. apply count_changed_quiet.
  apply Forall_impl with (2 := polls_steady ss b H). intros x [Hx _]. exact Hx.
Qed.

Lemma poll_active_low (s : Sample) (b : LoknoButton) :
  active_low (poll s b) = active_low b.
Proof. apply read_config. Qed.

(** X7: while the line holds one level, the polls report at most one
    change between them, whatever the clock readings and whatever state
    the run started from. *)
Theorem constant_level_at_most_one_change
  (c : bool) (ss : list Sample) (b : LoknoButton) :
  Forall (fun s => curr_state (s_level s) b = c) ss ->
  (count_changed (polls ss b) <= 1)%nat.
Proof.
  revert b. induction ss as [| s ss IH]; intros b H; cbn [polls].
  - cbn. auto.
  - inversion H as [| x l Hs Hrest]; subst.
    assert (Hrest' : Forall (fun s' => curr_state (s_level s') (poll s b)
                                       = curr_state (s_level s) b) ss).
    { apply Forall_impl with (2 := Hrest). intros s' Hs'.
      rewrite (curr_state_active_low _ b (poll s b) (poll_active_low s b)).
      exact Hs'. }
    rewrite count_changed_cons.
    destruct (changed (poll s b)) eqn:Ec.
    + assert (Hp : pressed (poll s b) = curr_state (s_level s) b).
      { unfold poll in *. rewrite read_pressed, Ec. reflexivity. }
      rewrite polls_steady_count; [auto |].
      rewrite Hp. exact Hrest'.
    + apply IH. exact Hrest'.
Qed.

Lemma constant_level_at_most_one_change_witness :
  let ss := [mkSample HIGH 10 10; mkSample HIGH 0 70; mkSample HIGH 0 900;
             mkSample HIGH 0 5] in
  Forall (fun s => curr_state (s_level s) idle_button = true) ss /\
  count_changed (polls ss idle_button) = 1%nat /\
  (count_changed (polls ss idle_button) <= 1)%nat.
Proof.
  cbv zeta.
  assert (H : Forall (fun s => curr_state (s_level s) idle_button = true)
                [mkSample HIGH 10 10; mkSample HIGH 0 70; mkSample HIGH 0 900;
                 mkSample HIGH 0 5])
    by (repeat constructor).
  split; [exact H | split; [reflexivity |]].
  exact (constant_level_at_most_one_change true _ idle_button H).
Defined.

Lemma last_cons_default {A : Type} (a d : A) (l : list A) :
  last (a :: l) d = last l a.
Proof.
  revert a d. induction l as [| x l IH]; intros a d; [reflexivity |].
  change (last (a :: x :: l) d) with (last (x :: l) d).
  rewrite (IH x d), (IH x a). reflexivity.
Qed.

Lemma poll_flip (s : Sample) (b : LoknoButton) :
  (changed (poll s b) = true -> pressed (poll s b) = negb (pressed b)) /\
  (changed (poll s b) = false -> pressed (poll s b) = pressed b).
Proof.
  unfold poll. split; intros Hc.
  - pose proof Hc as Hc'. rewrite read_changed in Hc'.
    apply andb_prop in Hc'. destruct Hc' as [_ Hne].
    rewrite read_pressed, Hc.
    destruct (curr_state (s_level s) b), (pressed b); cbn in *; congruence.
  - apply read_quiet. exact Hc.
Qed.

(** X8: every reported change is one flip of the debounced state: after
    any sequence of polls [pressed] differs from what it was before
    exactly when an odd number of them reported a change. *)
Theorem polls_parity (ss : list Sample) (b : LoknoButton) :
  pressed (last (polls ss b) b) =
  xorb (pressed b) (Nat.odd (count_changed (polls ss b))).
Proof.
  revert b. induction ss as [| s ss IH]; intros b; cbn [polls].
  - cbn. destruct (pressed b); reflexivity.
  - rewrite last_cons_default, IH, count_changed_cons.
    pose proof (poll_flip s b) as Hflip.
    destruct (changed (poll s b)) eqn:Ec.
    + rewrite Nat.odd_succ, <- Nat.negb_odd, (proj1 Hflip eq_refl).
      destruct (pressed b), (Nat.odd (count_changed (polls ss (poll s b))));
        reflexivity.
    + rewrite (proj2 Hflip eq_refl). reflexivity.
Qed.

Lemma begin_active_low (level now : Z) (b : LoknoButton) :
  active_low (begin level now b) = active_low b.
Proof.
  unfold begin. cbn. destruct (active_low b) eqn:E; cbn; rewrite ?E; reflexivity.
Qed.

(** X9: after [begin], polls that find the line at the level [begin] read
    (any two non-zero readings count as the same level) never report a
    change and keep the seeded state, however much time passes. *)
Theorem begin_then_steady_polls
  (level now : Z) (b : LoknoButton) (ss : list Sample) :
  Forall (fun s => bool_of_int (s_level s) = bool_of_int level) ss ->
  Forall (fun b' => changed b' = false /\ isPressed b' = curr_state level b)
         (polls ss (begin level now b)).
Proof.
  intros H.
  rewrite <- (begin_pressed level now b).
  apply polls_steady.
  apply Forall_impl with (2 := H). intros s Hs.
  rewrite begin_pressed.
  rewrite (curr_state_active_low _ b _ (begin_active_low level now b)).
  unfold curr_state. rewrite Hs. reflexivity.
Qed.

Lemma begin_then_steady_polls_witness :
  let ss := [mkSample LOW 5 5; mkSample LOW 5 100000; mkSample LOW 5 7] in
  Forall (fun s => bool_of_int (s_level s) = bool_of_int LOW) ss /\
  Forall (fun b' => changed b' = false /\ isPressed b' = true)
         (polls ss (begin LOW 1000 pullup_button)).
Proof.
  cbv zeta.
  assert (H : Forall (fun s => bool_of_int (s_level s) = bool_of_int LOW)
                [mkSample LOW 5 5; mkSample LOW 5 100000; mkSample LOW 5 7])
    by (repeat constructor).
  split; [exact H |].
  exact (begin_then_steady_polls LOW 1000 pullup_button _ H).
Defined.

Lemma releasedFor_eq (ms now : Z) (b : LoknoButton) :
  releasedFor ms now b = negb (pressed b) && (ulong_of_int ms <=? elapsed now b).
Proof.
  unfold releasedFor.
  destruct (negb (pressed b) && (ulong_of_int ms <=? elapsed now b)); reflexivity.
Qed.

(** X10: the elapsed time is the true distance modulo 2^32, so whole wraps
    of the counter are forgotten: a button released 2^32 ms ago or more
    answers [releasedFor ms] with false again until [ms] further
    milliseconds have passed since the wrap. *)
Theorem elapsed_forgets_whole_wraps (Tw Tnow ms : Z) (b : LoknoButton) :
  last_debounce_time b = millis_at Tw ->
  elapsed (millis_at Tnow) b = (Tnow - Tw) mod 2 ^ 32 /\
  (2 ^ 32 <= Tnow - Tw < 2 ^ 32 + ulong_of_int ms ->
   releasedFor ms (millis_at Tnow) b = false).
Proof.
  intros Hts.
  assert (Hel : elapsed (millis_at Tnow) b = (Tnow - Tw) mod 2 ^ 32).
  { unfold elapsed, ulong_sub. rewrite Hts. unfold millis_at.
    rewrite <- Zminus_mod. reflexivity. }
  split; [exact Hel |].
  intros Hwrap. rewrite releasedFor_eq, Hel.
  pose proof (ulong_of_int_is_ulong ms) as [_ Hms]. unfold ULONG_MODULUS in Hms.
  assert (Hr : (Tnow - Tw) mod 2 ^ 32 = Tnow - Tw - 2 ^ 32).
  { symmetry. apply (Z.mod_unique_pos _ _ 1); lia. }
  rewrite Hr.
  destruct (Z.leb_spec (ulong_of_int ms) (Tnow - Tw - 2 ^ 32)) as [Hle | Hgt];
    [lia | apply andb_false_r].
Qed.

Lemma elapsed_forgets_whole_wraps_witness :
  last_debounce_time idle_button = millis_at 0 /\
  2 ^ 32 <= 4294967301 - 0 < 2 ^ 32 + ulong_of_int 100 /\
  releasedFor 100 (millis_at 4294967295) idle_button = true /\
  releasedFor 100 (millis_at 4294967301) idle_button = false.
Proof.
  assert (H1 : last_debounce_time idle_button = millis_at 0) by reflexivity.
  assert (H2 : 2 ^ 32 <= 4294967301 - 0 < 2 ^ 32 + ulong_of_int 100)
    by (vm_compute; split; [discriminate | reflexivity]).
  split; [exact H1 | split; [exact H2 | split; [reflexivity |]]].
  exact (proj2 (elapsed_forgets_whole_wraps 0 4294967301 100 idle_button H1) H2).
Defined.

(** X11: [releasedFor] is monotone in its duration: when it holds for a
    duration it holds for every shorter non-negative one, at the same
    clock reading. *)
Theorem releasedFor_shorter (ms1 ms2 now : Z) (b : LoknoButton) :
  0 <= ms1 <= ms2 ->
  ms2 <= INT_MAX ->
  releasedFor ms2 now b = true ->
  releasedFor ms1 now b = true.
Proof.
  intros H12 Hmax. rewrite !releasedFor_eq, !andb_true_iff, !Z.leb_le.
  rewrite (ulong_of_int_nonneg ms1), (ulong_of_int_nonneg ms2) by lia.
  intros [Hp Hle]. split; [exact Hp | lia].
Qed.

Lemma releasedFor_shorter_witness :
  0 <= 30 <= 100 /\ 100 <= INT_MAX /\
  releasedFor 100 120 idle_button = true /\
  releasedFor 30 120 idle_button = true.
Proof.
  assert (H1 : 0 <= 30 <= 100) by lia.
  assert (H2 : 100 <= INT_MAX) by (vm_compute; discriminate).
  assert (H3 : releasedFor 100 120 idle_button = true) by reflexivity.
  split; [exact H1 | split; [exact H2 | split; [exact H3 |]]].
  exact (releasedFor_shorter 30 100 120 idle_button H1 H2 H3).
Defined.

(** X12: [releasedFor 0] is the negation of [isPressed] at every clock
    reading; and no duration makes [releasedFor] true while the button is
    pressed. *)
Theorem releasedFor_zero (ms now : Z) (b : LoknoButton) :
  releasedFor 0 now b = negb (isPressed b) /\
  (isPressed b = true -> releasedFor ms now b = false).
Proof.
  rewrite !releasedFor_eq. unfold isPressed. split.
  - change (ulong_of_int 0) with 0.
    pose proof (ulong_sub_is_ulong now (last_debounce_time b)) as [Hlo _].
    fold (elapsed now b) in Hlo.
    apply Z.leb_le in Hlo. rewrite Hlo. apply andb_true_r.
  - intros ->. reflexivity.
Qed.

Lemma releasedFor_zero_witness :
  isPressed (read HIGH 60 60 rising_button) = true /\
  releasedFor (-5) 1000 (read HIGH 60 60 rising_button) = false.
Proof.
  split; [reflexivity |].
  exact (proj2 (releasedFor_zero (-5) 1000 (read HIGH 60 60 rising_button)) eq_refl).
Defined.

(** X13: when the line settles on a level other than the debounced state
    and then holds it, the polls report the change exactly once, as soon
    as one of them reads the clock more than the interval after the start
    of the window. *)
Theorem settled_level_reported_once (ss : list Sample) (b : LoknoButton) :
  Forall (fun s => curr_state (s_level s) b = last_state b) ss ->
  last_state b <> pressed b ->
  Exists (fun s => ulong_of_int (debounce_time b)
                   < ulong_sub (s_check s) (last_debounce_time b)) ss ->
  count_changed (polls ss b) = 1%nat.
Proof.
  revert b. induction ss as [| s ss IH]; intros b Hall Hne Hex.
  - inversion Hex.
  - inversion Hall as [| x l Hs Hrest]; subst. cbn [polls].
    assert (Hts : last_debounce_time (poll s b) = last_debounce_time b).
    { unfold poll. rewrite read_last_debounce_time.
      apply bool_neq_false_iff in Hs. rewrite Hs. reflexivity. }
    assert (Hls : last_state (poll s b) = last_state b)
      by (unfold poll; rewrite read_last_state; exact Hs).
    assert (Hrest' : Forall (fun s' => curr_state (s_level s') (poll s b)
                                       = last_state b) ss).
    { apply Forall_impl with (2 := Hrest). intros s' Hs'.
      rewrite (curr_state_active_low _ b (poll s b) (poll_active_low s b)).
      exact Hs'. }
    rewrite count_changed_cons.
    destruct (Z_lt_le_dec (ulong_of_int (debounce_time b))
                (ulong_sub (s_check s) (last_debounce_time b))) as [Hlt | Hle].
    + rewrite <- Hts in Hlt. rewrite <- Hs in Hne.
      destruct (read_past_interval _ (s_edge s) _ b Hlt Hne) as [Hp Hc].
      fold (poll s b) in Hp, Hc. rewrite Hc.
      rewrite polls_steady_count; [reflexivity |].
      rewrite Hp, Hs. exact Hrest'.
    + rewrite <- Hts in Hle.
      destruct (read_within_interval _ (s_edge s) _ b Hle) as [Hp Hc].
      fold (poll s b) in Hp, Hc. rewrite Hc.
      apply IH.
      * rewrite Hls. exact Hrest'.
      * rewrite Hls, Hp. exact Hne.
      * assert (Hd : debounce_time (poll s b) = debounce_time b)
          by apply read_config.
        rewrite Hd, Hts.
        inversion Hex as [x l Hhead | x l Htail]; subst; [| exact Htail].
        rewrite Hts in Hle. lia.
Qed.

Lemma settled_level_reported_once_witness :
  let ss := [mkSample HIGH 0 20; mkSample HIGH 0 50; mkSample HIGH 0 51;
             mkSample HIGH 0 300] in
  Forall (fun s => curr_state (s_level s) rising_button
                   = last_state rising_button) ss /\
  last_state rising_button <> pressed rising_button /\
  Exists (fun s => ulong_of_int (debounce_time rising_button)
                   < ulong_sub (s_check s) (last_debounce_time rising_button)) ss /\
  map changed (polls ss rising_button) = [false; false; true; false] /\
  count_changed (polls ss rising_button) = 1%nat.
Proof.
  cbv zeta.
  assert (H1 : Forall (fun s => curr_state (s_level s) rising_button
                                = last_state rising_button)
                 [mkSample HIGH 0 20; mkSample HIGH 0 50; mkSample HIGH 0 51;
                  mkSample HIGH 0 300])
    by (repeat constructor).
  assert (H2 : last_state rising_button <> pressed rising_button)
    by (vm_compute; discriminate).
  assert (H3 : Exists (fun s => ulong_of_int (debounce_time rising_button)
                                < ulong_sub (s_check s)
                                    (last_debounce_time rising_button))
                 [mkSample HIGH 0 20; mkSample HIGH 0 50; mkSample HIGH 0 51;
                  mkSample HIGH 0 300])
    by (apply Exists_cons_tl, Exists_cons_tl, Exists_cons_hd; vm_compute; reflexivity).
  split; [exact H1 | split; [exact H2 | split; [exact H3 | split; [reflexivity |]]]].
  exact (settled_level_reported_once _ rising_button H1 H2 H3).
Defined.
